(** * c10/util/Exception.h: the error payload and the assertion helpers

    A shallow embedding of [c10::Error], of [c10::detail::if_empty_then] and
    of the macros [AT_ERROR], [AT_INTERNAL_ASSERT], [AT_CHECK], [AT_ASSERT]
    and [AT_ASSERTM].

    The header declares the constructors of [Error], [AppendMessage], [msg]
    and [msg_without_backtrace] without a body, and it uses [c10::str] and
    [SourceLocation] of c10/util/StringUtil.h.  Those parts are modelled from
    the specification and marked as such; everything else follows the header
    line by line. *)

From Stdlib Require Import String Ascii List ZArith NArith Lia Bool.
From Stdlib Require Import DecimalString.
Import ListNotations.

Open Scope list_scope.
Open Scope string_scope.

(** ** Text: occurrences of one string inside another *)

Module Text.

(** [std::string::empty()]. *)
Definition empty (s : string) : bool :=
  match s with
  | EmptyString => true
  | String _ _ => false
  end.

(** [contains needle hay]: [needle] occurs somewhere in [hay]. *)
Fixpoint contains (needle hay : string) : bool :=
  String.prefix needle hay ||
  match hay with
  | EmptyString => false
  | String _ rest => contains needle rest
  end.

(** [needle] occurs in [hay] starting at offset [pos]. *)
Definition occurs_at (pos : nat) (needle hay : string) : Prop :=
  exists pre post, hay = pre ++ needle ++ post /\ String.length pre = pos.

Definition occurs (needle hay : string) : Prop :=
  exists pos, occurs_at pos needle hay.

(** An occurrence of [first] ends before an occurrence of [second] begins. *)
Definition precedes (first second hay : string) : Prop :=
  exists p1 p2,
    occurs_at p1 first hay /\ occurs_at p2 second hay /\
    p1 + String.length first <= p2.

(** Every offset at which [needle] occurs in [hay], counted from [pos]. *)
Fixpoint positions_from (pos : nat) (needle hay : string) : list nat :=
  ((if String.prefix needle hay then [pos] else []) ++
   match hay with
   | EmptyString => []
   | String _ rest => positions_from (S pos) needle rest
   end)%list.

Definition positions (needle hay : string) : list nat :=
  positions_from 0 needle hay.

End Text.

(** ** Data model *)

(** Modelled from the spec: [SourceLocation] is declared in
    c10/util/StringUtil.h, outside this header.  The spec describes it as the
    immutable triple of a function name, a file path and an unsigned line
    number; the macros below build it as [{__func__, __FILE__, line}]. *)
Record SourceLocation : Type := mkSourceLocation {
  function : string;
  file : string;
  line : Z
}.

(** [class Error]: the five private fields of the header, in its order.
    [caller_] is a [const void*]: an address, with [0] for [nullptr]. *)
Record Error : Type := mkError {
  msg_stack_ : list string;
  backtrace_ : string;
  msg_ : string;
  msg_without_backtrace_ : string;
  caller_ : N
}.

Definition nullptr : N := 0%N.

(** The accessors that the header defines inline. *)
Definition msg_stack (e : Error) : list string := msg_stack_ e.
Definition what (e : Error) : string := msg_ e.
Definition caller (e : Error) : N := caller_ e.
Definition what_without_backtrace (e : Error) : string :=
  msg_without_backtrace_ e.

(** Modelled from the spec: the boundary between two fragments of the message
    stack.  The header does not show it; the spec has the fragments rendered
    "in the order appended, earliest first, each fragment separated by a
    newline-equivalent boundary". *)
Definition fragment_boundary : string := String (ascii_of_nat 10) EmptyString.

(** Modelled from the spec: the "joined message_stack", the fragments in the
    order of the stack with the boundary between neighbours. *)
Fixpoint joined (stack : list string) : string :=
  match stack with
  | [] => EmptyString
  | [m] => m
  | m :: rest => m ++ fragment_boundary ++ joined rest
  end.

(** Modelled from the spec: [Error::msg] and [Error::msg_without_backtrace]
    are declared in the header and defined elsewhere.  The spec's composition
    rule: the full message is the backtrace (if non-empty) followed by the
    joined message stack followed by nothing else; the message without
    backtrace is the joined message stack only. *)
Definition msg (e : Error) : string :=
  if Text.empty (backtrace_ e)
  then joined (msg_stack_ e)
  else backtrace_ e ++ joined (msg_stack_ e).

Definition msg_without_backtrace (e : Error) : string :=
  joined (msg_stack_ e).

(** Both derived fields are filled from the two functions above: "derived
    fields from msg_stack_ and backtrace_" in the header's words. *)
Definition refresh (stack : list string) (backtrace : string) (c : N) : Error :=
  let e := mkError stack backtrace EmptyString EmptyString c in
  mkError stack backtrace (msg e) (msg_without_backtrace e) c.

(** Modelled from the spec: the constructor
    [Error(const std::string& msg, const std::string& backtrace,
    const void* caller = nullptr)] has no body in the header.  The spec, form
    1: the message stack is [[message]], backtrace and caller are stored as
    they are, and both derived fields are computed at once. *)
Definition Error_new (message backtrace : string) (c : N) : Error :=
  refresh [message] backtrace c.

(** Modelled from the spec: the trailing annotation into which form 2 folds
    its location; the spec's example is
    "<message> (<function> at <file>:<line>)", with the line in decimal. *)
Definition location_note (source_location : SourceLocation) : string :=
  " (" ++ function source_location ++ " at " ++ file source_location ++ ":" ++
  NilZero.string_of_int (Z.to_int (line source_location)) ++ ")".

(** Modelled from the spec: the constructor
    [Error(SourceLocation source_location, const std::string& msg)] has no
    body in the header.  The spec, form 2: the backtrace is empty and the
    message stack is [[message]]; "the location is folded into the derived
    full message as a trailing annotation ..., not stored as a separate
    field -- only the composed string form persists".  So the cached full
    message, which [what] returns "including the source location" in the
    header's words, is the composed message followed by the annotation; the
    cached message without backtrace is, "without source location", the
    composed message alone.  The caller defaults to [nullptr]. *)
Definition Error_at (source_location : SourceLocation) (message : string)
  : Error :=
  let e := refresh [message] EmptyString nullptr in
  mkError (msg_stack_ e) (backtrace_ e)
          (msg e ++ location_note source_location)
          (msg_without_backtrace e)
          (caller_ e).

(** Modelled from the spec: [Error::AppendMessage] has no body in the header.
    The spec: it pushes the fragment onto the end of the message stack and
    recomputes both derived fields; it never touches the backtrace. *)
Definition AppendMessage (new_msg : string) (e : Error) : Error :=
  refresh (msg_stack_ e ++ [new_msg])%list (backtrace_ e) (caller_ e).

Definition AppendMessages (fragments : list string) (e : Error) : Error :=
  fold_left (fun acc m => AppendMessage m acc) fragments e.

Section EnforceForm.

(** The layout of the text that form 3 composes; the spec does not give it. *)
Variable enforce_text : string -> Z -> string -> string -> string.

(** Modelled from the spec: the constructor
    [Error(file, line, condition, msg, backtrace, caller)] has no body in
    the header.  The spec, form 3: it "composes a message that embeds the
    failing condition text alongside the supplied message, with backtrace
    and caller as in form 1". *)
Definition Error_enforce (file : string) (line : Z) (condition : string)
    (message backtrace : string) (c : N) : Error :=
  Error_new (enforce_text file line condition message) backtrace c.

End EnforceForm.

(** ** [c10::detail] *)

(** [inline std::string if_empty_then(std::string x, std::string y)]:
    return [x] if it is non-empty; otherwise return [y]. *)
Definition if_empty_then (x y : string) : string :=
  if Text.empty x then y else x.

(** The deprecation attributes of [deprecated_AT_ASSERT] and
    [deprecated_AT_ASSERTM].  In the header both [C10_DEPRECATED_MESSAGE]
    blocks sit inside a comment ("Deprecation disabled until we fix sites in
    our codebase"), so neither function carries one. *)
Definition deprecated_AT_ASSERT_attribute : option string := None.
Definition deprecated_AT_ASSERTM_attribute : option string := None.

(** What a compiler reports at a call of a function with that attribute. *)
Definition call_site_notice (attribute : option string) : list string :=
  match attribute with
  | Some notice => [notice]
  | None => []
  end.

(** ** [c10::str] *)

(** The values handed to [c10::str] in this header: string literals and
    [std::string]s, and integers such as [__LINE__]. *)
Inductive Printable : Type :=
| PStr (s : string)
| PInt (z : Z).

(** [operator<<] on an output stream. *)
Definition render (t : Printable) : string :=
  match t with
  | PStr s => s
  | PInt z => NilZero.string_of_int (Z.to_int z)
  end.

(** Modelled from the spec: [c10::str] is defined in c10/util/StringUtil.h,
    outside this header.  The spec speaks of the "rendered extras"; the header
    has the extra arguments "printed in the assert failure message using
    operator<<", and its macros pass the blanks and the colon of their
    messages inside their own literals: the arguments are streamed one after
    the other into one string stream, whose content is returned. *)
Fixpoint stream (ss : string) (args : list Printable) : string :=
  match args with
  | [] => ss
  | t :: rest => stream (ss ++ render t) rest
  end.

Definition str (args : list Printable) : string := stream EmptyString args.

(** ** The macros *)

(** What the preprocessor knows at the place where a macro is used: the
    function, the file and the line, and the macros defined there.
    [expanded site text] is the spelling of the tokens [text] once those
    macros have been replaced.  An argument of a function-like macro is
    replaced in this way before it is put in the place of its parameter,
    unless the parameter is an operand of [#]: [#cond] is the spelling of the
    argument as it is handed over. *)
Record CallSite : Type := mkCallSite {
  __func__ : string;
  __FILE__ : string;
  __LINE__ : Z;
  expanded : string -> string
}.

Definition static_cast_uint32 (z : Z) : Z := (z mod 2 ^ 32)%Z.

(** [{__func__, __FILE__, static_cast<uint32_t>(__LINE__)}]. *)
Definition here (site : CallSite) : SourceLocation :=
  mkSourceLocation (__func__ site) (__FILE__ site)
                   (static_cast_uint32 (__LINE__ site)).

(** How a statement ends. *)
Inductive completion : Type :=
| Normal
| Throw (e : Error).

Section Macros.

(** The program state that evaluating a condition or an extra argument may
    read and change. *)
Variable St : Type.

Definition expr (A : Type) : Type := St -> A * St.
Definition stmt : Type := St -> completion * St.

Definition ret {A : Type} (a : A) : expr A := fun s => (a, s).

Definition bind {A B : Type} (m : expr A) (k : A -> expr B) : expr B :=
  fun s => let (a, s') := m s in k a s'.

Definition lit (text : string) : expr Printable := ret (PStr text).

(** The arguments of a call, evaluated from left to right (C++ leaves the
    order open; nothing below depends on it). *)
Fixpoint eval_args (args : list (expr Printable)) : expr (list Printable) :=
  match args with
  | [] => ret []
  | a :: rest =>
      bind a (fun v => bind (eval_args rest) (fun vs => ret (v :: vs)))
  end.

(** [::c10::str(__VA_ARGS__)] as an expression. *)
Definition str_of (args : list (expr Printable)) : expr string :=
  bind (eval_args args) (fun vs => ret (str vs)).

(** A [std::string] passed on as an argument. *)
Definition arg (e : expr string) : expr Printable :=
  bind e (fun x => ret (PStr x)).

(** [#define AT_ERROR(...) throw ::c10::Error({__func__, __FILE__,
    static_cast<uint32_t>(__LINE__)}, ::c10::str(__VA_ARGS__))]. *)
Definition AT_ERROR (site : CallSite) (args : list (expr Printable)) : stmt :=
  fun s =>
    let (vs, s') := eval_args args s in
    (Throw (Error_at (here site) (str vs)), s').

(** [#define AT_INTERNAL_ASSERT(cond, ...)]; [cond_text] is [#cond]. *)
Definition AT_INTERNAL_ASSERT (site : CallSite) (cond_text : string)
    (cond : expr bool) (extras : list (expr Printable)) : stmt :=
  fun s =>
    let (c, s1) := cond s in
    if negb c then
      AT_ERROR site
        [ lit (cond_text ++ " ASSERT FAILED at ");
          lit (__FILE__ site);
          lit ":";
          ret (PInt (__LINE__ site));
          lit ", please report a bug to PyTorch. ";
          arg (str_of extras) ] s1
    else (Normal, s1).

(** The second argument of [if_empty_then] in [AT_CHECK]: four adjacent
    literals, the second of them [#cond]. *)
Definition AT_CHECK_default (cond_text : string) : string :=
  "Expected " ++ cond_text ++ " to be true, but got false. " ++
  "(Could this error message be improved?  If so, please report an " ++
  "enhancement request to PyTorch.)".

(** [#define AT_CHECK(cond, ...)]. *)
Definition AT_CHECK (site : CallSite) (cond_text : string)
    (cond : expr bool) (extras : list (expr Printable)) : stmt :=
  fun s =>
    let (c, s1) := cond s in
    if negb c then
      AT_ERROR site
        [ arg (bind (str_of extras) (fun x =>
            ret (if_empty_then x (AT_CHECK_default cond_text)))) ]
        s1
    else (Normal, s1).

(** [inline void deprecated_AT_ASSERT() {}] and
    [inline void deprecated_AT_ASSERTM() {}]. *)
Definition deprecated_AT_ASSERT : expr unit := ret tt.
Definition deprecated_AT_ASSERTM : expr unit := ret tt.

(** [do { body } while (false);]: the body runs once. *)
Definition do_while_false (body : stmt) : stmt := body.

(** [#define AT_ASSERT(cond)]; [cond_text] is the argument as written.  In
    the body [cond] is no operand of [#], so the argument reaches
    [AT_INTERNAL_ASSERT] with its macros replaced, and the [#cond] in there
    stringifies that. *)
Definition AT_ASSERT (site : CallSite) (cond_text : string)
    (cond : expr bool) : stmt :=
  do_while_false
    (fun s =>
       let (_, s0) := deprecated_AT_ASSERT s in
       AT_INTERNAL_ASSERT site (expanded site cond_text) cond [] s0).

(** [#define AT_ASSERTM(cond, ...)]; the argument reaches
    [AT_INTERNAL_ASSERT] with its macros replaced, as in [AT_ASSERT]. *)
Definition AT_ASSERTM (site : CallSite) (cond_text : string)
    (cond : expr bool) (extras : list (expr Printable)) : stmt :=
  do_while_false
    (fun s =>
       let (_, s0) := deprecated_AT_ASSERTM s in
       AT_INTERNAL_ASSERT site (expanded site cond_text) cond extras s0).

End Macros.

Arguments ret {St A} a _.
Arguments bind {St A B} m k _.
Arguments lit {St} text _.
Arguments eval_args {St} args _.
Arguments str_of {St} args _.
Arguments arg {St} e _.
Arguments AT_ERROR {St} site args _.
Arguments AT_INTERNAL_ASSERT {St} site cond_text cond extras _.
Arguments AT_CHECK {St} site cond_text cond extras _.
Arguments AT_ASSERT {St} site cond_text cond _.
Arguments AT_ASSERTM {St} site cond_text cond extras _.
Arguments do_while_false {St} body _.
Arguments deprecated_AT_ASSERT {St} _.
Arguments deprecated_AT_ASSERTM {St} _.

(** A statement ended by throwing. *)
Definition throws {St : Type} (r : completion * St) : Prop :=
  exists e, fst r = Throw e.

(** The compile-time notices at a use of the two deprecated spellings: those
    of the one function each of them calls. *)
Definition AT_ASSERT_notices : list string :=
  call_site_notice deprecated_AT_ASSERT_attribute.
Definition AT_ASSERTM_notices : list string :=
  call_site_notice deprecated_AT_ASSERTM_attribute.

(** ** Notions used in the statements below *)

(** What precedes a fragment pushed onto [stack] in the joined text. *)
Definition lead (stack : list string) : string :=
  match stack with
  | [] => EmptyString
  | _ :: _ => joined stack ++ fragment_boundary
  end.

(** One layout that form 3 may use, for the instance below. *)
Definition bracketed (file : string) (line : Z) (condition message : string)
  : string :=
  "[" ++ file ++ ":" ++ render (PInt line) ++ "] " ++ condition ++ ". " ++
  message.


(** A call site for the examples. *)
Definition add_cpp_41 : CallSite :=
  mkCallSite "add" "add.cpp" 41 (fun text => text).

(** A call site below [#define NEVER (1 == 2)]. *)
Definition never_cpp_9 : CallSite :=
  mkCallSite "run" "never.cpp" 9
    (fun text => if String.eqb text "NEVER" then "(1 == 2)" else text).

(** The text of a failing [AT_INTERNAL_ASSERT], from its pieces. *)
Definition assert_failed (site : CallSite) (cond_text rendered : string)
  : string :=
  cond_text ++ " ASSERT FAILED at " ++ __FILE__ site ++ ":" ++
  render (PInt (__LINE__ site)) ++ ", please report a bug to PyTorch. " ++
  rendered.

(** * Properties *)

(** ** Strings *)

Lemma append_assoc (a b c : string) : (a ++ b) ++ c = a ++ (b ++ c).
Proof.
  induction a as [|ch a IH]; simpl; [reflexivity | now rewrite IH].
Qed.

Lemma append_empty_r (a : string) : a ++ EmptyString = a.
Proof.
  induction a as [|ch a IH]; simpl; [reflexivity | now rewrite IH].
Qed.

Lemma length_append (a b : string) :
  String.length (a ++ b) = String.length a + String.length b.
Proof.
  induction a as [|ch a IH]; simpl; [reflexivity | now rewrite IH].
Qed.

Lemma prefix_append (needle post : string) :
  String.prefix needle (needle ++ post) = true.
Proof.
  induction needle as [|ch needle IH]; simpl.
  - now destruct post.
  - destruct (ascii_dec ch ch) as [_|ne]; [exact IH | now elim ne].
Qed.

Lemma prefix_split (needle hay : string) :
  String.prefix needle hay = true -> exists post, hay = needle ++ post.
Proof.
  revert hay.
  induction needle as [|ch needle IH]; intros hay H.
  - now exists hay.
  - destruct hay as [|ch' hay]; simpl in H; [discriminate H|].
    destruct (ascii_dec ch ch') as [->|_]; [|discriminate H].
    destruct (IH hay H) as [post ->].
    now exists post.
Qed.

Lemma contains_occurs (needle hay : string) :
  Text.contains needle hay = true <-> Text.occurs needle hay.
Proof.
  split.
  - induction hay as [|ch hay IH]; cbn [Text.contains]; intro H;
      apply orb_true_iff in H; destruct H as [H|H].
    + destruct (prefix_split _ _ H) as [post Hpost].
      exists 0, EmptyString, post. now split.
    + discriminate H.
    + destruct (prefix_split _ _ H) as [post Hpost].
      exists 0, EmptyString, post. now split.
    + destruct (IH H) as (pos & pre & post & -> & Hlen).
      exists (S pos), (String ch pre), post. simpl. now rewrite Hlen.
  - intros (pos & pre & post & -> & _). clear pos.
    induction pre as [|ch pre IH].
    + change (EmptyString ++ needle ++ post) with (needle ++ post).
      destruct (needle ++ post) eqn:E; cbn [Text.contains]; rewrite <- E;
        now rewrite prefix_append.
    + change (String ch pre ++ needle ++ post)
        with (String ch (pre ++ needle ++ post)).
      cbn [Text.contains]. rewrite IH. apply orb_true_r.
Qed.

Lemma occurs_whole (s : string) : Text.occurs s s.
Proof.
  exists 0, EmptyString, EmptyString. simpl. now rewrite append_empty_r.
Qed.

Lemma occurs_append_l (needle a b : string) :
  Text.occurs needle a -> Text.occurs needle (a ++ b).
Proof.
  intros (pos & pre & post & -> & Hlen).
  exists pos, pre, (post ++ b). now rewrite !append_assoc.
Qed.

Lemma occurs_append_r (needle a b : string) :
  Text.occurs needle b -> Text.occurs needle (a ++ b).
Proof.
  intros (pos & pre & post & -> & Hlen).
  exists (String.length a + pos), (a ++ pre), post.
  now rewrite append_assoc, length_append, Hlen.
Qed.

Create HintDb text.
Lemma occurs_at_positions (pos : nat) (needle hay : string) :
  Text.occurs_at pos needle hay -> In pos (Text.positions needle hay).
Proof.
  intros (pre & post & -> & <-). unfold Text.positions.
  change (String.length pre) with (0 + String.length pre).
  generalize 0 as start.
  induction pre as [|ch pre IH]; intro start.
  - change (EmptyString ++ needle ++ post) with (needle ++ post).
    simpl String.length. rewrite Nat.add_0_r.
    destruct (needle ++ post) eqn:E; cbn [Text.positions_from];
      rewrite <- E, prefix_append; now left.
  - change (String ch pre ++ needle ++ post)
      with (String ch (pre ++ needle ++ post)).
    cbn [Text.positions_from]. apply in_or_app. right.
    simpl String.length. rewrite Nat.add_succ_r. apply (IH (S start)).
Qed.

#[local] Hint Resolve occurs_whole occurs_append_l occurs_append_r : text.

(** ** [c10::str] streams its arguments in order *)

Lemma stream_cons (ss : string) (args : list Printable) :
  stream ss args = ss ++ stream EmptyString args.
Proof.
  revert ss.
  induction args as [|t rest IH]; intro ss; simpl.
  - now rewrite append_empty_r.
  - rewrite (IH (ss ++ render t)), (IH (render t)). apply append_assoc.
Qed.

Lemma str_nil : str [] = EmptyString.
Proof. reflexivity. Qed.

Lemma str_cons (t : Printable) (rest : list Printable) :
  str (t :: rest) = render t ++ str rest.
Proof. unfold str. simpl. apply stream_cons. Qed.

Lemma str_single (s : string) : str [PStr s] = s.
Proof. rewrite str_cons, str_nil. apply append_empty_r. Qed.

(** ** The derived fields and the message stack *)

Lemma msg_backtrace_joined (e : Error) :
  msg e = backtrace_ e ++ joined (msg_stack_ e).
Proof.
  unfold msg. destruct (backtrace_ e); reflexivity.
Qed.

Lemma joined_snoc (stack : list string) (m : string) :
  joined (stack ++ [m]) =
  match stack with
  | [] => m
  | _ :: _ => joined stack ++ fragment_boundary ++ m
  end.
Proof.
  induction stack as [|a stack IH]; [reflexivity|].
  destruct stack as [|b stack]; [reflexivity|].
  change (joined ((a :: b :: stack) ++ [m]))
    with (a ++ fragment_boundary ++ joined ((b :: stack) ++ [m])).
  rewrite IH.
  change (joined (a :: b :: stack))
    with (a ++ fragment_boundary ++ joined (b :: stack)).
  now rewrite !append_assoc.
Qed.

Lemma AppendMessages_stack (fragments : list string) (e : Error) :
  msg_stack (AppendMessages fragments e) = (msg_stack e ++ fragments)%list /\
  backtrace_ (AppendMessages fragments e) = backtrace_ e /\
  caller (AppendMessages fragments e) = caller e.
Proof.
  revert e.
  induction fragments as [|m fragments IH]; intro e; simpl.
  - now rewrite app_nil_r.
  - destruct (IH (AppendMessage m e)) as (Hs & Hb & Hc).
    rewrite Hs, Hb, Hc. unfold msg_stack, AppendMessage; simpl.
    now rewrite <- app_assoc.
Qed.

Lemma joined_push (stack : list string) (m : string) :
  joined (stack ++ [m]) = lead stack ++ m.
Proof.
  rewrite joined_snoc. destruct stack; simpl; [reflexivity|].
  now rewrite append_assoc.
Qed.

Lemma joined_push2 (stack : list string) (m1 m2 : string) :
  joined ((stack ++ [m1]) ++ [m2]) =
  lead stack ++ m1 ++ fragment_boundary ++ m2.
Proof.
  rewrite joined_push.
  assert (lead (stack ++ [m1]) = joined (stack ++ [m1]) ++ fragment_boundary)
    as -> by (now destruct stack).
  now rewrite joined_push, !append_assoc.
Qed.

Lemma length_pos (s : string) : s <> EmptyString -> 0 < String.length s.
Proof.
  destruct s; simpl; [now intros [] | lia].
Qed.

(** ** The claims about [Error] *)

(** C1.  For every Error the full message is the backtrace (when there is
    one) followed by the joined message stack and nothing else, and the
    message without backtrace is the joined message stack only.  Hence an
    Error built from a message [M] and a non-empty backtrace [B] that does not
    occur in [M] has a message without backtrace that contains [M] and not
    [B], and a full message that contains both; its cached strings, returned
    by [what] and [what_without_backtrace], are these two messages. *)
Theorem message_composition :
  (forall e : Error,
      msg_without_backtrace e = joined (msg_stack e) /\
      msg e = backtrace_ e ++ joined (msg_stack e) /\
      (backtrace_ e = EmptyString -> msg e = joined (msg_stack e))) /\
  (forall (M B : string) (c : N),
      B <> EmptyString ->
      Text.contains B M = false ->
      let e := Error_new M B c in
      Text.contains M (msg_without_backtrace e) = true /\
      Text.contains B (msg_without_backtrace e) = false /\
      Text.contains M (msg e) = true /\
      Text.contains B (msg e) = true /\
      what e = msg e /\
      what_without_backtrace e = msg_without_backtrace e).
Proof.
  split.
  - intro e. repeat split.
    + apply msg_backtrace_joined.
    + intro Hb. rewrite msg_backtrace_joined, Hb. reflexivity.
  - intros M B c HB Hdis e.
    assert (Hm : msg e = B ++ M) by apply msg_backtrace_joined.
    assert (Hw : msg_without_backtrace e = M) by reflexivity.
    rewrite Hm, Hw.
    repeat split; try assumption;
      apply contains_occurs; auto with text.
Qed.

Lemma message_composition_witness :
  let e := Error_new "shape mismatch" "frame #0: at::add" nullptr in
  Text.contains "shape mismatch" (msg_without_backtrace e) = true /\
  Text.contains "frame #0: at::add" (msg_without_backtrace e) = false /\
  Text.contains "shape mismatch" (msg e) = true /\
  Text.contains "frame #0: at::add" (msg e) = true /\
  what e = msg e /\
  what_without_backtrace e = msg_without_backtrace e.
Proof.
  apply (proj2 message_composition "shape mismatch" "frame #0: at::add" nullptr).
  - discriminate.
  - vm_compute. reflexivity.
Defined.

Section StackNeverEmpty.

Variable enforce_text : string -> Z -> string -> string -> string.

(** Form 3 "embeds ... the supplied message". *)
Hypothesis enforce_text_embeds :
  forall file line condition message,
    Text.occurs message (enforce_text file line condition message).

(** C2.  Whichever of the three forms builds an Error, its message stack is
    non-empty right after the construction and after any further
    [AppendMessage] calls, and its first fragment is the original message
    (forms 1 and 2) or the text composed around it (form 3). *)
Theorem message_stack_never_empty (later : list string) :
  (forall (M B : string) (c : N),
      let e := AppendMessages later (Error_new M B c) in
      msg_stack e <> [] /\ msg_stack e = M :: later) /\
  (forall (loc : SourceLocation) (M : string),
      let e := AppendMessages later (Error_at loc M) in
      msg_stack e <> [] /\ msg_stack e = M :: later) /\
  (forall (file : string) (line : Z) (condition M B : string) (c : N),
      let e :=
        AppendMessages later
          (Error_enforce enforce_text file line condition M B c) in
      msg_stack e <> [] /\
      exists first,
        msg_stack e = first :: later /\ Text.occurs M first).
Proof.
  cbv zeta. split; [|split].
  - intros M B c. rewrite (proj1 (AppendMessages_stack later _)).
    split; [discriminate | reflexivity].
  - intros loc M. rewrite (proj1 (AppendMessages_stack later _)).
    split; [discriminate | reflexivity].
  - intros f l condition M B c.
    rewrite (proj1 (AppendMessages_stack later _)).
    split; [discriminate|].
    exists (enforce_text f l condition M).
    split; [reflexivity | apply enforce_text_embeds].
Qed.

End StackNeverEmpty.

Lemma message_stack_never_empty_witness :
  let e :=
    AppendMessages ["while adding"; "in forward"]
      (Error_enforce bracketed "add.cpp" 12 "a.size() == b.size()"
         "shape mismatch" "frame #0" nullptr) in
  msg_stack e <> [] /\
  exists first,
    msg_stack e = [first; "while adding"; "in forward"] /\
    Text.occurs "shape mismatch" first.
Proof.
  refine (proj2 (proj2 (message_stack_never_empty bracketed _
                          ["while adding"; "in forward"]))
            "add.cpp" 12%Z "a.size() == b.size()" "shape mismatch"
            "frame #0" nullptr).
  intros file line condition message. unfold bracketed.
  auto 10 with text.
Defined.



(** C6.  Appending [M1] and then [M2] pushes both onto the end of the message
    stack, in that order, and leaves the backtrace as it was; in the full
    message [M1] starts before [M2] and ends where [M2] has not yet begun. *)
Theorem AppendMessage_order (e : Error) (M1 M2 : string) :
  M1 <> EmptyString ->
  M2 <> EmptyString ->
  let e1 := AppendMessage M1 e in
  let e2 := AppendMessage M2 e1 in
  msg_stack e1 = (msg_stack e ++ [M1])%list /\
  msg_stack e2 = (msg_stack e ++ [M1; M2])%list /\
  backtrace_ e1 = backtrace_ e /\
  backtrace_ e2 = backtrace_ e /\
  what e2 = msg e2 /\
  exists p1 p2,
    Text.occurs_at p1 M1 (msg e2) /\
    Text.occurs_at p2 M2 (msg e2) /\
    p1 + String.length M1 <= p2 /\
    p1 < p2 /\
    p2 < String.length (msg e2).
Proof.
  intros H1 H2 e1 e2.
  assert (Hmsg : msg e2 =
                 (backtrace_ e ++ lead (msg_stack_ e)) ++
                 M1 ++ fragment_boundary ++ M2).
  { rewrite msg_backtrace_joined. subst e2 e1. unfold AppendMessage; simpl.
    now rewrite joined_push2, append_assoc. }
  repeat split.
  - subst e2 e1. unfold msg_stack, AppendMessage; simpl.
    now rewrite <- app_assoc.
  - exists (String.length (backtrace_ e ++ lead (msg_stack_ e))),
      (String.length
         ((backtrace_ e ++ lead (msg_stack_ e)) ++ M1 ++ fragment_boundary)).
    pose proof (length_pos _ H1) as L1.
    pose proof (length_pos _ H2) as L2.
    repeat split.
    + exists (backtrace_ e ++ lead (msg_stack_ e)), (fragment_boundary ++ M2).
      now split.
    + exists ((backtrace_ e ++ lead (msg_stack_ e)) ++ M1 ++ fragment_boundary),
        EmptyString.
      split; [|reflexivity].
      now rewrite Hmsg, append_empty_r, !append_assoc.
    + rewrite !length_append. lia.
    + rewrite !length_append. lia.
    + rewrite Hmsg, !length_append. lia.
Qed.

Lemma AppendMessage_order_witness :
  let e := Error_new "index out of range" "frame #0" nullptr in
  let e1 := AppendMessage "while indexing" e in
  let e2 := AppendMessage "in forward" e1 in
  msg_stack e1 = ["index out of range"; "while indexing"] /\
  msg_stack e2 = ["index out of range"; "while indexing"; "in forward"] /\
  backtrace_ e1 = "frame #0" /\
  backtrace_ e2 = "frame #0" /\
  what e2 = msg e2 /\
  exists p1 p2,
    Text.occurs_at p1 "while indexing" (msg e2) /\
    Text.occurs_at p2 "in forward" (msg e2) /\
    p1 + 14 <= p2 /\
    p1 < p2 /\
    p2 < String.length (msg e2).
Proof.
  apply (AppendMessage_order (Error_new "index out of range" "frame #0" nullptr)
           "while indexing" "in forward"); discriminate.
Defined.

(** ** The claims about the helpers *)

(** C9.  [if_empty_then x y] is [x] when [x] is non-empty and [y] otherwise;
    on the empty string and [fallback] it is [fallback], on [x] and
    [fallback] it is [x]. *)
Theorem if_empty_then_spec (x y : string) :
  (x <> EmptyString -> if_empty_then x y = x) /\
  (x = EmptyString -> if_empty_then x y = y) /\
  if_empty_then EmptyString "fallback" = "fallback" /\
  if_empty_then "x" "fallback" = "x".
Proof.
  repeat split.
  - intro Hx. destruct x; [now elim Hx | reflexivity].
  - intros ->. reflexivity.
Qed.

Lemma if_empty_then_spec_witness :
  if_empty_then "got 5" "fallback" = "got 5" /\
  if_empty_then EmptyString "fallback" = "fallback".
Proof.
  split.
  - apply (proj1 (if_empty_then_spec "got 5" "fallback")). discriminate.
  - apply (proj1 (proj2 (if_empty_then_spec EmptyString "fallback"))).
    reflexivity.
Defined.

Lemma eval_args_nil (St : Type) (s : St) : eval_args [] s = ([], s).
Proof. reflexivity. Qed.

Lemma eval_args_cons (St : Type) (a : expr St Printable)
    (rest : list (expr St Printable)) (s : St) :
  eval_args (a :: rest) s =
  (fst (a s) :: fst (eval_args rest (snd (a s))),
   snd (eval_args rest (snd (a s)))).
Proof.
  cbn [eval_args]. unfold bind, ret.
  destruct (a s) as [v s1]; simpl.
  now destruct (eval_args rest s1).
Qed.

Lemma AT_ERROR_throws (St : Type) (site : CallSite)
    (args : list (expr St Printable)) (s : St) :
  AT_ERROR site args s =
  (Throw (Error_at (here site) (str (fst (eval_args args s)))),
   snd (eval_args args s)).
Proof.
  unfold AT_ERROR. now destruct (eval_args args s).
Qed.

(** The text that a failing [AT_INTERNAL_ASSERT] hands to [Error]. *)
Lemma AT_INTERNAL_ASSERT_fails (St : Type) (site : CallSite)
    (cond_text : string) (cond : expr St bool)
    (extras : list (expr St Printable)) (s : St) :
  fst (cond s) = false ->
  AT_INTERNAL_ASSERT site cond_text cond extras s =
  (Throw (Error_at (here site)
            (cond_text ++ " ASSERT FAILED at " ++ __FILE__ site ++ ":" ++
             render (PInt (__LINE__ site)) ++
             ", please report a bug to PyTorch. " ++
             str (fst (eval_args extras (snd (cond s)))))),
   snd (eval_args extras (snd (cond s)))).
Proof.
  unfold AT_INTERNAL_ASSERT.
  destruct (cond s) as [c s1]; simpl fst; simpl snd; intros ->.
  cbn [negb]. rewrite AT_ERROR_throws.
  rewrite !eval_args_cons, eval_args_nil.
  unfold lit, arg, str_of, bind, ret; cbn [fst snd].
  destruct (eval_args extras s1) as [vs s2]; cbn [fst snd].
  rewrite !str_cons, str_nil. cbn [render].
  now rewrite append_empty_r, !append_assoc.
Qed.

Lemma AT_CHECK_fails (St : Type) (site : CallSite)
    (cond_text : string) (cond : expr St bool)
    (extras : list (expr St Printable)) (s : St) :
  fst (cond s) = false ->
  AT_CHECK site cond_text cond extras s =
  (Throw (Error_at (here site)
            (if_empty_then (str (fst (eval_args extras (snd (cond s)))))
                           (AT_CHECK_default cond_text))),
   snd (eval_args extras (snd (cond s)))).
Proof.
  unfold AT_CHECK.
  destruct (cond s) as [c s1]; simpl fst; simpl snd; intros ->.
  cbn [negb]. rewrite AT_ERROR_throws.
  rewrite !eval_args_cons, eval_args_nil.
  unfold lit, arg, str_of, bind, ret; cbn [fst snd].
  destruct (eval_args extras s1) as [vs s2]; cbn [fst snd].
  now rewrite str_single.
Qed.

Lemma AT_INTERNAL_ASSERT_holds (St : Type) (site : CallSite)
    (cond_text : string) (cond : expr St bool)
    (extras : list (expr St Printable)) (s : St) :
  fst (cond s) = true ->
  AT_INTERNAL_ASSERT site cond_text cond extras s = (Normal, snd (cond s)).
Proof.
  unfold AT_INTERNAL_ASSERT.
  destruct (cond s) as [c s1]; simpl fst; simpl snd; intros ->. reflexivity.
Qed.

Lemma AT_CHECK_holds (St : Type) (site : CallSite)
    (cond_text : string) (cond : expr St bool)
    (extras : list (expr St Printable)) (s : St) :
  fst (cond s) = true ->
  AT_CHECK site cond_text cond extras s = (Normal, snd (cond s)).
Proof.
  unfold AT_CHECK.
  destruct (cond s) as [c s1]; simpl fst; simpl snd; intros ->. reflexivity.
Qed.

(** C3.  A failing [AT_CHECK] without extra text throws an Error whose
    message contains the text of the condition and the request to improve the
    message; with the extra text [got 5] the message is [got 5] and the
    generated text is left out.  The message is the one fragment of the
    message stack and what [what_without_backtrace] returns; [what] shows
    the location after it. *)
Theorem AT_CHECK_messages (St : Type) (site : CallSite) (cond_text : string)
    (cond : expr St bool) (s : St) :
  fst (cond s) = false ->
  (exists e,
      AT_CHECK site cond_text cond [] s = (Throw e, snd (cond s)) /\
      e = Error_at (here site) (AT_CHECK_default cond_text) /\
      msg_stack e = [what_without_backtrace e] /\
      Text.occurs cond_text (what_without_backtrace e) /\
      Text.occurs
        "(Could this error message be improved?  If so, please report an enhancement request to PyTorch.)"
        (what_without_backtrace e)) /\
  (exists e,
      AT_CHECK site cond_text cond [lit "got 5"] s = (Throw e, snd (cond s)) /\
      e = Error_at (here site) "got 5" /\
      msg_stack e = ["got 5"] /\
      what_without_backtrace e = "got 5" /\
      what e = "got 5" ++ location_note (here site)).
Proof.
  intro Hc. split.
  - exists (Error_at (here site) (AT_CHECK_default cond_text)).
    split; [|split; [|split; [|split]]]; try reflexivity.
    + now rewrite AT_CHECK_fails by assumption.
    + unfold AT_CHECK_default.
      change (what_without_backtrace (Error_at (here site) ?m)) with m.
      auto with text.
    + unfold AT_CHECK_default.
      change (what_without_backtrace (Error_at (here site) ?m)) with m.
      rewrite <- append_assoc with (a := "Expected ").
      rewrite <- append_assoc. apply occurs_append_r, occurs_whole.
  - exists (Error_at (here site) "got 5").
    split; [|repeat split].
    now rewrite AT_CHECK_fails by assumption.
Qed.

Lemma AT_CHECK_messages_witness :
  (exists e,
      AT_CHECK (St := unit) add_cpp_41 "false" (ret false) [] tt =
        (Throw e, tt) /\
      e = Error_at (here add_cpp_41) (AT_CHECK_default "false") /\
      msg_stack e = [what_without_backtrace e] /\
      Text.occurs "false" (what_without_backtrace e) /\
      Text.occurs
        "(Could this error message be improved?  If so, please report an enhancement request to PyTorch.)"
        (what_without_backtrace e)) /\
  (exists e,
      AT_CHECK (St := unit) add_cpp_41 "false" (ret false) [lit "got 5"] tt =
        (Throw e, tt) /\
      e = Error_at (here add_cpp_41) "got 5" /\
      msg_stack e = ["got 5"] /\
      what_without_backtrace e = "got 5" /\
      what e = "got 5" ++ location_note (here add_cpp_41)).
Proof.
  apply (AT_CHECK_messages unit add_cpp_41 "false" (ret false) tt).
  reflexivity.
Defined.

(** C4, as stated, fails twice at the extras [x =] and [0] under the
    condition [false]: the extras are streamed without a blank between them,
    so the message holds [x =0] and not [x = 0]; and the bug-report phrase
    stands before the extras, not after them. *)
Lemma AT_INTERNAL_ASSERT_extras_counterexample :
  let r :=
    AT_INTERNAL_ASSERT (St := unit) add_cpp_41 "false" (ret false)
      [lit "x ="; ret (PInt 0)] tt in
  let text :=
    "false ASSERT FAILED at add.cpp:41, please report a bug to PyTorch. x =0" in
  r = (Throw (Error_at (here add_cpp_41) text), tt) /\
  ~ (exists e, fst r = Throw e /\
               Text.occurs "x = 0" (what_without_backtrace e)) /\
  ~ (exists e, fst r = Throw e /\
               Text.precedes "x =0" "please report a bug"
                 (what_without_backtrace e)).
Proof.
  cbv zeta. split; [reflexivity|]. split.
  - intros (e & He & Hocc). injection He as <-.
    apply contains_occurs in Hocc. vm_compute in Hocc. discriminate Hocc.
  - intros (e & He & p1 & p2 & H1 & H2 & Hle). injection He as <-.
    apply occurs_at_positions in H1, H2.
    vm_compute in H1, H2.
    destruct H1 as [<-|[]]. destruct H2 as [<-|[]].
    simpl in Hle. lia.
Qed.

(** C4, amended.  A failing [AT_INTERNAL_ASSERT] throws an Error built from
    the captured location, which its full message shows after the message:
    the function, the file and the line of the call site.  Its message is the text of the condition,
    [ASSERT FAILED at] file and line, the phrase [please report a bug to
    PyTorch.] and then the extras, streamed one after the other without
    separators: [x = ] and [0] give [x = 0], [x =] and [0] give [x =0].  The
    extras may be absent, and then nothing follows the phrase. *)
Theorem AT_INTERNAL_ASSERT_message (St : Type) (site : CallSite)
    (cond_text : string) (cond : expr St bool)
    (extras : list (expr St Printable)) (s : St) :
  fst (cond s) = false ->
  let vs := fst (eval_args extras (snd (cond s))) in
  let text := assert_failed site cond_text (str vs) in
  (exists e,
      AT_INTERNAL_ASSERT site cond_text cond extras s =
        (Throw e, snd (eval_args extras (snd (cond s)))) /\
      e = Error_at (here site) text /\
      msg_stack e = [text] /\
      what_without_backtrace e = text /\
      what e =
        text ++ " (" ++ __func__ site ++ " at " ++ __FILE__ site ++ ":" ++
        render (PInt (static_cast_uint32 (__LINE__ site))) ++ ")") /\
  Text.occurs cond_text text /\
  Text.occurs "please report a bug" text /\
  Text.precedes cond_text ", please report a bug to PyTorch. " text /\
  Text.precedes ", please report a bug to PyTorch. " (str vs) text /\
  (extras = [] ->
   text = assert_failed site cond_text EmptyString) /\
  str [PStr "x = "; PInt 0] = "x = 0" /\
  str [PStr "x ="; PInt 0] = "x =0".
Proof.
  intros Hc vs text.
  split; [|split; [|split; [|split; [|split; [|split; [|split]]]]]];
    try reflexivity.
  - exists (Error_at (here site) text).
    split; [|repeat split].
    now rewrite AT_INTERNAL_ASSERT_fails by assumption.
  - subst text. unfold assert_failed. auto with text.
  - subst text. unfold assert_failed.
    do 5 apply occurs_append_r.
    change ", please report a bug to PyTorch. "
      with (", " ++ "please report a bug" ++ " to PyTorch. ").
    rewrite !append_assoc.
    apply occurs_append_r, occurs_append_l, occurs_whole.
  - set (middle := " ASSERT FAILED at " ++ __FILE__ site ++ ":" ++
                   render (PInt (__LINE__ site))).
    exists 0, (String.length (cond_text ++ middle)). split; [|split].
    + exists EmptyString,
        (middle ++ ", please report a bug to PyTorch. " ++ str vs).
      split; [|reflexivity].
      subst text middle. unfold assert_failed.
      now rewrite !append_assoc.
    + exists (cond_text ++ middle), (str vs).
      split; [|reflexivity].
      subst text middle. unfold assert_failed.
      now rewrite !append_assoc.
    + rewrite length_append. lia.
  - set (front := cond_text ++ " ASSERT FAILED at " ++ __FILE__ site ++ ":" ++
                  render (PInt (__LINE__ site))).
    exists (String.length front),
      (String.length (front ++ ", please report a bug to PyTorch. ")).
    split; [|split].
    + exists front, (str vs). split; [|reflexivity].
      subst text front. unfold assert_failed.
      now rewrite !append_assoc.
    + exists (front ++ ", please report a bug to PyTorch. "), EmptyString.
      split; [|reflexivity].
      subst text front. unfold assert_failed.
      now rewrite append_empty_r, !append_assoc.
    + rewrite length_append. lia.
  - intros ->. reflexivity.
Qed.

Lemma AT_INTERNAL_ASSERT_message_witness :
  let text :=
    "x == 0 ASSERT FAILED at add.cpp:41, please report a bug to PyTorch. x = 0"
  in
  (exists e,
      AT_INTERNAL_ASSERT (St := unit) add_cpp_41 "x == 0" (ret false)
        [lit "x = "; ret (PInt 0)] tt = (Throw e, tt) /\
      e = Error_at (here add_cpp_41) text /\
      msg_stack e = [text] /\
      what_without_backtrace e = text /\
      what e =
        "x == 0 ASSERT FAILED at add.cpp:41, please report a bug to PyTorch. x = 0 (add at add.cpp:41)") /\
  Text.occurs "x == 0" text /\
  Text.occurs "please report a bug" text /\
  Text.precedes "x == 0" ", please report a bug to PyTorch. " text /\
  Text.precedes ", please report a bug to PyTorch. " "x = 0" text.
Proof.
  pose proof (AT_INTERNAL_ASSERT_message unit add_cpp_41 "x == 0" (ret false)
                [lit "x = "; ret (PInt 0)] tt eq_refl) as H.
  cbv zeta in H.
  destruct H as (H1 & H2 & H3 & H4 & H5 & _).
  exact (conj H1 (conj H2 (conj H3 (conj H4 H5)))).
Defined.

Lemma AT_ASSERT_expands (St : Type) (site : CallSite) (cond_text : string)
    (cond : expr St bool) (s : St) :
  AT_ASSERT site cond_text cond s =
  AT_INTERNAL_ASSERT site (expanded site cond_text) cond [] s.
Proof. reflexivity. Qed.

Lemma AT_ASSERTM_expands (St : Type) (site : CallSite) (cond_text : string)
    (cond : expr St bool) (extras : list (expr St Printable)) (s : St) :
  AT_ASSERTM site cond_text cond extras s =
  AT_INTERNAL_ASSERT site (expanded site cond_text) cond extras s.
Proof. reflexivity. Qed.

Lemma AT_INTERNAL_ASSERT_any_text (St : Type) (site : CallSite)
    (text1 text2 : string) (cond : expr St bool)
    (extras : list (expr St Printable)) (s : St) :
  (throws (AT_INTERNAL_ASSERT site text1 cond extras s) <->
   throws (AT_INTERNAL_ASSERT site text2 cond extras s)) /\
  snd (AT_INTERNAL_ASSERT site text1 cond extras s) =
  snd (AT_INTERNAL_ASSERT site text2 cond extras s).
Proof.
  destruct (fst (cond s)) eqn:Hc.
  - rewrite !AT_INTERNAL_ASSERT_holds by assumption. now split.
  - rewrite !AT_INTERNAL_ASSERT_fails by assumption.
    split; [|reflexivity].
    split; intros _; eexists; reflexivity.
Qed.

(** C7, as stated, fails twice.  A use of [AT_ASSERT] or of [AT_ASSERTM]
    brings no deprecation notice, because the attribute of the function each
    of them calls is commented out in the header.  And below
    [#define NEVER (1 == 2)] the alias [AT_ASSERT(NEVER)] does not throw what
    [AT_INTERNAL_ASSERT(NEVER)] throws: the alias shows the condition with
    its macro replaced. *)
Lemma deprecation_notice_counterexample :
  AT_ASSERT_notices = [] /\ AT_ASSERTM_notices = [] /\
  ~ (AT_ASSERT_notices <> [] /\ AT_ASSERTM_notices <> []) /\
  AT_ASSERT (St := unit) never_cpp_9 "NEVER" (ret false) tt =
    (Throw (Error_at (here never_cpp_9)
       "(1 == 2) ASSERT FAILED at never.cpp:9, please report a bug to PyTorch. "),
     tt) /\
  AT_INTERNAL_ASSERT (St := unit) never_cpp_9 "NEVER" (ret false) [] tt =
    (Throw (Error_at (here never_cpp_9)
       "NEVER ASSERT FAILED at never.cpp:9, please report a bug to PyTorch. "),
     tt) /\
  AT_ASSERT (St := unit) never_cpp_9 "NEVER" (ret false) tt <>
  AT_INTERNAL_ASSERT (St := unit) never_cpp_9 "NEVER" (ret false) [] tt.
Proof.
  split; [reflexivity|]. split; [reflexivity|].
  split; [intros [H _]; now apply H|].
  split; [reflexivity|]. split; [reflexivity|].
  intro H. vm_compute in H. discriminate H.
Qed.

(** C7, amended.  [AT_ASSERT] and [AT_ASSERTM] behave at run time as
    [AT_INTERNAL_ASSERT] does on the condition with its macros replaced: for
    every condition, every extras and every state they throw exactly when
    [AT_INTERNAL_ASSERT] throws and leave the same state, and the Error is
    the same whenever macro replacement leaves the text of the condition as
    it is; otherwise the message shows the replaced text.  The deprecation
    notice is disabled, so a use of them reports nothing at compile time. *)
Theorem deprecated_aliases (St : Type) (site : CallSite) (cond_text : string)
    (cond : expr St bool) (extras : list (expr St Printable)) (s : St) :
  AT_ASSERT site cond_text cond s =
    AT_INTERNAL_ASSERT site (expanded site cond_text) cond [] s /\
  AT_ASSERTM site cond_text cond extras s =
    AT_INTERNAL_ASSERT site (expanded site cond_text) cond extras s /\
  (expanded site cond_text = cond_text ->
   AT_ASSERT site cond_text cond s =
     AT_INTERNAL_ASSERT site cond_text cond [] s /\
   AT_ASSERTM site cond_text cond extras s =
     AT_INTERNAL_ASSERT site cond_text cond extras s) /\
  (throws (AT_ASSERT site cond_text cond s) <->
   throws (AT_INTERNAL_ASSERT site cond_text cond [] s)) /\
  snd (AT_ASSERT site cond_text cond s) =
    snd (AT_INTERNAL_ASSERT site cond_text cond [] s) /\
  (throws (AT_ASSERTM site cond_text cond extras s) <->
   throws (AT_INTERNAL_ASSERT site cond_text cond extras s)) /\
  snd (AT_ASSERTM site cond_text cond extras s) =
    snd (AT_INTERNAL_ASSERT site cond_text cond extras s) /\
  deprecated_AT_ASSERT s = (tt, s) /\
  deprecated_AT_ASSERTM s = (tt, s) /\
  AT_ASSERT_notices = [] /\
  AT_ASSERTM_notices = [].
Proof.
  split; [apply AT_ASSERT_expands|].
  split; [apply AT_ASSERTM_expands|].
  split.
  { intro Hsame.
    rewrite AT_ASSERT_expands, AT_ASSERTM_expands, Hsame. now split. }
  rewrite AT_ASSERT_expands, AT_ASSERTM_expands.
  split; [apply AT_INTERNAL_ASSERT_any_text|].
  split; [apply AT_INTERNAL_ASSERT_any_text|].
  split; [apply AT_INTERNAL_ASSERT_any_text|].
  split; [apply AT_INTERNAL_ASSERT_any_text|].
  repeat split.
Qed.

Lemma deprecated_aliases_witness :
  AT_ASSERT (St := unit) add_cpp_41 "x == 0" (ret false) tt =
    AT_INTERNAL_ASSERT add_cpp_41 "x == 0" (ret false) [] tt /\
  AT_ASSERTM (St := unit) add_cpp_41 "x == 0" (ret false)
      [lit "x = "; ret (PInt 1)] tt =
    AT_INTERNAL_ASSERT add_cpp_41 "x == 0" (ret false)
      [lit "x = "; ret (PInt 1)] tt.
Proof.
  apply (deprecated_aliases unit add_cpp_41 "x == 0" (ret false)
           [lit "x = "; ret (PInt 1)] tt).
  reflexivity.
Defined.

Lemma throws_iff (St : Type) (cond : expr St bool) (s : St) (h : stmt St) :
  (fst (cond s) = false -> exists e s', h s = (Throw e, s')) ->
  (fst (cond s) = true -> h s = (Normal, snd (cond s))) ->
  throws (h s) <-> fst (cond s) = false.
Proof.
  intros Hf Ht. unfold throws. split.
  - intros [e He]. destruct (fst (cond s)); [|reflexivity].
    rewrite Ht in He by reflexivity. discriminate He.
  - intro Hc. destruct (Hf Hc) as (e & s' & ->). now exists e.
Qed.

(** C10.  Each of [AT_INTERNAL_ASSERT], [AT_CHECK], [AT_ASSERT] and
    [AT_ASSERTM] throws exactly when its condition evaluates to false.  When
    the condition is true the helper completes normally, no Error exists, and
    the state is the one the condition left: no extra argument has been
    evaluated or rendered, whatever the extras would do to the state. *)
Theorem helpers_throw_iff_false (St : Type) (site : CallSite)
    (cond_text : string) (cond : expr St bool)
    (extras : list (expr St Printable)) (s : St) :
  (throws (AT_INTERNAL_ASSERT site cond_text cond extras s) <->
   fst (cond s) = false) /\
  (throws (AT_CHECK site cond_text cond extras s) <-> fst (cond s) = false) /\
  (throws (AT_ASSERT site cond_text cond s) <-> fst (cond s) = false) /\
  (throws (AT_ASSERTM site cond_text cond extras s) <->
   fst (cond s) = false) /\
  (fst (cond s) = true ->
   AT_INTERNAL_ASSERT site cond_text cond extras s = (Normal, snd (cond s)) /\
   AT_CHECK site cond_text cond extras s = (Normal, snd (cond s)) /\
   AT_ASSERT site cond_text cond s = (Normal, snd (cond s)) /\
   AT_ASSERTM site cond_text cond extras s = (Normal, snd (cond s))).
Proof.
  split; [|split; [|split; [|split]]].
  - apply throws_iff.
    + intro Hc. rewrite AT_INTERNAL_ASSERT_fails by assumption. eauto.
    + apply AT_INTERNAL_ASSERT_holds.
  - apply throws_iff.
    + intro Hc. rewrite AT_CHECK_fails by assumption. eauto.
    + apply AT_CHECK_holds.
  - rewrite AT_ASSERT_expands. apply throws_iff.
    + intro Hc. rewrite AT_INTERNAL_ASSERT_fails by assumption. eauto.
    + apply AT_INTERNAL_ASSERT_holds.
  - rewrite AT_ASSERTM_expands. apply throws_iff.
    + intro Hc. rewrite AT_INTERNAL_ASSERT_fails by assumption. eauto.
    + apply AT_INTERNAL_ASSERT_holds.
  - intro Hc. split; [|split; [|split]].
    + now apply AT_INTERNAL_ASSERT_holds.
    + now apply AT_CHECK_holds.
    + rewrite AT_ASSERT_expands. now apply AT_INTERNAL_ASSERT_holds.
    + rewrite AT_ASSERTM_expands. now apply AT_INTERNAL_ASSERT_holds.
Qed.

Lemma helpers_throw_iff_false_witness :
  let cond : expr nat bool := fun evaluations => (true, evaluations) in
  let extras : list (expr nat Printable) :=
    [fun evaluations => (PStr "shape", S evaluations)] in
  AT_INTERNAL_ASSERT add_cpp_41 "ok" cond extras 0 = (Normal, 0) /\
  AT_CHECK add_cpp_41 "ok" cond extras 0 = (Normal, 0) /\
  AT_ASSERT add_cpp_41 "ok" cond 0 = (Normal, 0) /\
  AT_ASSERTM add_cpp_41 "ok" cond extras 0 = (Normal, 0).
Proof.
  intros cond extras.
  apply (proj2 (proj2 (proj2 (proj2
           (helpers_throw_iff_false nat add_cpp_41 "ok" cond extras 0))))).
  reflexivity.
Defined.

(** * Further properties of the header's code *)

(** ** More on strings and on [c10::str] *)

Lemma append_cancel_l (a x y : string) : a ++ x = a ++ y -> x = y.
Proof.
  induction a as [|ch a IH]; simpl; intro H; [exact H|].
  injection H as H. now apply IH.
Qed.

Lemma append_cancel_r (b x y : string) : x ++ b = y ++ b -> x = y.
Proof.
  revert y.
  induction x as [|ch x IH]; intros [|ch' y] H; simpl in H.
  - reflexivity.
  - apply (f_equal String.length) in H. simpl in H.
    rewrite length_append in H. lia.
  - apply (f_equal String.length) in H. simpl in H.
    rewrite length_append in H. lia.
  - injection H as -> H. f_equal. now apply IH.
Qed.

Lemma str_app (xs ys : list Printable) : str (xs ++ ys) = str xs ++ str ys.
Proof.
  induction xs as [|t xs IH]; [reflexivity|].
  change ((t :: xs) ++ ys)%list with (t :: (xs ++ ys))%list.
  now rewrite !str_cons, IH, append_assoc.
Qed.

Lemma eval_args_lit (St : Type) (text : string)
    (rest : list (expr St Printable)) (s : St) :
  eval_args (lit text :: rest) s =
  (PStr text :: fst (eval_args rest s), snd (eval_args rest s)).
Proof. now rewrite eval_args_cons. Qed.

Lemma eval_args_ticks (St : Type) (tick : St -> St)
    (args : list (expr St Printable)) :
  (forall a, In a args -> forall s, snd (a s) = tick s) ->
  forall s, snd (eval_args args s) = Nat.iter (List.length args) tick s.
Proof.
  induction args as [|a rest IH]; intros Hall s; [reflexivity|].
  rewrite eval_args_cons. cbn [snd List.length].
  rewrite IH by (intros b Hb; apply Hall; now right).
  rewrite (Hall a) by now left.
  symmetry. apply Nat.iter_succ_r.
Qed.

(** ** [if_empty_then] *)

(** X1.  [if_empty_then] picks the first non-empty string: it is associative,
    the empty string is its unit on both sides, and its result is empty only
    when both arguments are. *)
Theorem if_empty_then_monoid (x y z : string) :
  if_empty_then (if_empty_then x y) z = if_empty_then x (if_empty_then y z) /\
  if_empty_then EmptyString x = x /\
  if_empty_then x EmptyString = x /\
  Text.empty (if_empty_then x y) = Text.empty x && Text.empty y.
Proof.
  destruct x, y; repeat split.
Qed.

(** ** [AT_CHECK] *)

(** X2.  A failing [AT_CHECK] never throws an Error with an empty message:
    the message is the rendered extras when they render to some text, and the
    generated default otherwise, also when extras are given and all of them
    render to nothing. *)
Theorem AT_CHECK_message_never_empty (St : Type) (site : CallSite)
    (cond_text : string) (cond : expr St bool)
    (extras : list (expr St Printable)) (s : St) :
  fst (cond s) = false ->
  let rendered := str (fst (eval_args extras (snd (cond s)))) in
  exists m,
    AT_CHECK site cond_text cond extras s =
      (Throw (Error_at (here site) m), snd (eval_args extras (snd (cond s)))) /\
    msg_stack (Error_at (here site) m) = [m] /\
    m <> EmptyString /\
    (rendered <> EmptyString -> m = rendered) /\
    (rendered = EmptyString -> m = AT_CHECK_default cond_text).
Proof.
  intros Hc rendered.
  exists (if_empty_then rendered (AT_CHECK_default cond_text)).
  split; [now apply AT_CHECK_fails|].
  split; [reflexivity|].
  destruct rendered as [|ch rest]; cbn [if_empty_then Text.empty].
  - repeat split; [discriminate | intro H; now elim H].
  - repeat split; [discriminate | discriminate].
Qed.

Lemma AT_CHECK_message_never_empty_witness :
  exists m,
    AT_CHECK (St := unit) add_cpp_41 "n > 0" (ret false)
      [lit EmptyString; lit EmptyString] tt =
      (Throw (Error_at (here add_cpp_41) m), tt) /\
    msg_stack (Error_at (here add_cpp_41) m) = [m] /\
    m <> EmptyString /\
    (EmptyString <> EmptyString -> m = EmptyString) /\
    (EmptyString = EmptyString -> m = AT_CHECK_default "n > 0").
Proof.
  apply (AT_CHECK_message_never_empty unit add_cpp_41 "n > 0" (ret false)
           [lit EmptyString; lit EmptyString] tt).
  reflexivity.
Defined.

(** X3.  A failing [AT_CHECK] whose extras render to some text is the same
    statement as [AT_ERROR] with those extras, run after the condition: the
    same Error is thrown and the same state is left. *)
Theorem AT_CHECK_as_AT_ERROR (St : Type) (site : CallSite)
    (cond_text : string) (cond : expr St bool)
    (extras : list (expr St Printable)) (s : St) :
  fst (cond s) = false ->
  str (fst (eval_args extras (snd (cond s)))) <> EmptyString ->
  AT_CHECK site cond_text cond extras s = AT_ERROR site extras (snd (cond s)).
Proof.
  intros Hc Hne.
  rewrite AT_CHECK_fails by assumption. rewrite AT_ERROR_throws.
  destruct (str (fst (eval_args extras (snd (cond s))))) as [|ch rest];
    [now elim Hne | reflexivity].
Qed.

Lemma AT_CHECK_as_AT_ERROR_witness :
  AT_CHECK (St := unit) add_cpp_41 "n > 0" (ret false)
    [lit "Expected n to be positive, but got "; ret (PInt (-3))] tt =
  AT_ERROR add_cpp_41
    [lit "Expected n to be positive, but got "; ret (PInt (-3))] tt.
Proof.
  apply (AT_CHECK_as_AT_ERROR unit add_cpp_41 "n > 0" (ret false)
           [lit "Expected n to be positive, but got "; ret (PInt (-3))] tt).
  - reflexivity.
  - vm_compute. discriminate.
Defined.

(** X4.  The default message of [AT_CHECK] tells conditions apart: different
    condition texts give different default messages, hence different Errors,
    wherever they are thrown. *)
Theorem AT_CHECK_default_injective (c1 c2 : string) :
  c1 <> c2 ->
  AT_CHECK_default c1 <> AT_CHECK_default c2 /\
  forall loc1 loc2 : SourceLocation,
    Error_at loc1 (AT_CHECK_default c1) <> Error_at loc2 (AT_CHECK_default c2).
Proof.
  intro Hne.
  assert (Hd : AT_CHECK_default c1 <> AT_CHECK_default c2).
  { intro H. apply Hne. unfold AT_CHECK_default in H.
    apply append_cancel_l in H.
    now apply append_cancel_r in H. }
  split; [exact Hd|].
  intros loc1 loc2 H. apply Hd.
  apply (f_equal msg_stack) in H.
  unfold msg_stack, Error_at, refresh in H. cbn [msg_stack_] in H.
  congruence.
Qed.

Lemma AT_CHECK_default_injective_witness :
  AT_CHECK_default "n > 0" <> AT_CHECK_default "n >= 0" /\
  forall loc1 loc2 : SourceLocation,
    Error_at loc1 (AT_CHECK_default "n > 0") <>
    Error_at loc2 (AT_CHECK_default "n >= 0").
Proof.
  apply (AT_CHECK_default_injective "n > 0" "n >= 0"). discriminate.
Defined.

(** ** [AT_ERROR] and [AT_INTERNAL_ASSERT] *)

(** X5.  The Error that [AT_ERROR] throws shows the call site: its full
    message is the rendered arguments followed by the function, the file and
    the line cast to [uint32_t], which always fits and is [__LINE__] itself
    whenever [__LINE__] fits; its message without backtrace is the rendered
    arguments alone.  The full message of a failing [AT_INTERNAL_ASSERT] then
    names the same file and line twice, in its text and in its location. *)
Theorem thrown_Error_shows_call_site (St : Type) (site : CallSite)
    (cond_text : string) (cond : expr St bool)
    (args : list (expr St Printable)) (s : St) :
  (exists e,
      AT_ERROR site args s = (Throw e, snd (eval_args args s)) /\
      what_without_backtrace e = str (fst (eval_args args s)) /\
      what e =
        str (fst (eval_args args s)) ++
        " (" ++ __func__ site ++ " at " ++ __FILE__ site ++ ":" ++
        render (PInt (static_cast_uint32 (__LINE__ site))) ++ ")") /\
  (0 <= static_cast_uint32 (__LINE__ site) < 2 ^ 32)%Z /\
  ((0 <= __LINE__ site < 2 ^ 32)%Z ->
   fst (cond s) = false ->
   exists e,
     fst (AT_INTERNAL_ASSERT site cond_text cond args s) = Throw e /\
     what e =
       cond_text ++ " ASSERT FAILED at " ++
       __FILE__ site ++ ":" ++ render (PInt (__LINE__ site)) ++
       ", please report a bug to PyTorch. " ++
       str (fst (eval_args args (snd (cond s)))) ++
       " (" ++ __func__ site ++ " at " ++
       __FILE__ site ++ ":" ++ render (PInt (__LINE__ site)) ++ ")").
Proof.
  split; [|split].
  - exists (Error_at (here site) (str (fst (eval_args args s)))).
    split; [apply AT_ERROR_throws|]. split; reflexivity.
  - unfold static_cast_uint32. apply Z.mod_pos_bound. reflexivity.
  - intros Hrange Hc.
    rewrite AT_INTERNAL_ASSERT_fails by assumption. cbn [fst].
    eexists. split; [reflexivity|].
    change (what (Error_at (here site) ?m)) with (m ++ location_note (here site)).
    unfold location_note. cbn [here function file line].
    unfold static_cast_uint32. rewrite Z.mod_small by assumption.
    change (NilZero.string_of_int (Z.to_int (__LINE__ site)))
      with (render (PInt (__LINE__ site))).
    now rewrite !append_assoc.
Qed.

Lemma thrown_Error_shows_call_site_witness :
  exists e,
    fst (AT_INTERNAL_ASSERT (St := unit) add_cpp_41 "x == 0" (ret false)
           [lit "x = "; ret (PInt 1)] tt) = Throw e /\
    what e =
      "x == 0 ASSERT FAILED at add.cpp:41, please report a bug to PyTorch. x = 1 (add at add.cpp:41)".
Proof.
  apply (proj2 (proj2
           (thrown_Error_shows_call_site unit add_cpp_41 "x == 0" (ret false)
              [lit "x = "; ret (PInt 1)] tt))).
  - vm_compute. split; [discriminate | reflexivity].
  - reflexivity.
Defined.

(** X6.  A failing [AT_INTERNAL_ASSERT] is [AT_ERROR] on the five pieces of
    its text followed by the extras themselves, run after the condition: that
    the macro first gathers the extras with a [c10::str] of their own changes
    neither the Error nor the state. *)
Theorem AT_INTERNAL_ASSERT_as_AT_ERROR (St : Type) (site : CallSite)
    (cond_text : string) (cond : expr St bool)
    (extras : list (expr St Printable)) (s : St) :
  fst (cond s) = false ->
  AT_INTERNAL_ASSERT site cond_text cond extras s =
  AT_ERROR site
    (lit (cond_text ++ " ASSERT FAILED at ") ::
     lit (__FILE__ site) ::
     lit ":" ::
     ret (PInt (__LINE__ site)) ::
     lit ", please report a bug to PyTorch. " ::
     extras) (snd (cond s)).
Proof.
  intro Hc.
  rewrite AT_INTERNAL_ASSERT_fails by assumption. rewrite AT_ERROR_throws.
  rewrite !eval_args_lit, eval_args_cons.
  unfold ret at 1 2 3. cbn [fst snd].
  rewrite !eval_args_lit. cbn [fst snd].
  rewrite !str_cons. cbn [render].
  now rewrite !append_assoc.
Qed.

Lemma AT_INTERNAL_ASSERT_as_AT_ERROR_witness :
  AT_INTERNAL_ASSERT (St := unit) add_cpp_41 "x == 0" (ret false)
    [lit "x = "; ret (PInt 1)] tt =
  AT_ERROR add_cpp_41
    [lit "x == 0 ASSERT FAILED at "; lit "add.cpp"; lit ":"; ret (PInt 41);
     lit ", please report a bug to PyTorch. "; lit "x = "; ret (PInt 1)] tt.
Proof.
  apply (AT_INTERNAL_ASSERT_as_AT_ERROR unit add_cpp_41 "x == 0" (ret false)
           [lit "x = "; ret (PInt 1)] tt).
  reflexivity.
Defined.

(** X7.  On failure every extra argument is evaluated exactly once, in
    whatever order: if each extra moves the state by the same step, the state
    after a failing [AT_INTERNAL_ASSERT], [AT_CHECK] or [AT_ASSERTM] is the
    state after the condition moved by as many steps as there are extras, and
    likewise for [AT_ERROR] and its arguments. *)
Theorem extras_evaluated_once (St : Type) (site : CallSite)
    (cond_text : string) (cond : expr St bool)
    (extras : list (expr St Printable)) (tick : St -> St) (s : St) :
  (forall a, In a extras -> forall s0, snd (a s0) = tick s0) ->
  fst (cond s) = false ->
  snd (AT_INTERNAL_ASSERT site cond_text cond extras s) =
    Nat.iter (List.length extras) tick (snd (cond s)) /\
  snd (AT_CHECK site cond_text cond extras s) =
    Nat.iter (List.length extras) tick (snd (cond s)) /\
  snd (AT_ASSERTM site cond_text cond extras s) =
    Nat.iter (List.length extras) tick (snd (cond s)) /\
  snd (AT_ERROR site extras s) = Nat.iter (List.length extras) tick s.
Proof.
  intros Hall Hc.
  split; [|split; [|split]].
  - rewrite AT_INTERNAL_ASSERT_fails by assumption. cbn [snd].
    now apply eval_args_ticks.
  - rewrite AT_CHECK_fails by assumption. cbn [snd].
    now apply eval_args_ticks.
  - rewrite AT_ASSERTM_expands, AT_INTERNAL_ASSERT_fails by assumption.
    cbn [snd]. now apply eval_args_ticks.
  - rewrite AT_ERROR_throws. cbn [snd]. now apply eval_args_ticks.
Qed.

Lemma extras_evaluated_once_witness :
  let cond : expr nat bool := fun evaluations => (false, evaluations) in
  let extras : list (expr nat Printable) :=
    [ (fun evaluations => (PStr "x = ", S evaluations));
      (fun evaluations => (PInt 1, S evaluations)) ] in
  snd (AT_INTERNAL_ASSERT add_cpp_41 "x == 0" cond extras 0) = 2 /\
  snd (AT_CHECK add_cpp_41 "x == 0" cond extras 0) = 2 /\
  snd (AT_ASSERTM add_cpp_41 "x == 0" cond extras 0) = 2 /\
  snd (AT_ERROR add_cpp_41 extras 0) = 2.
Proof.
  intros cond extras.
  apply (extras_evaluated_once nat add_cpp_41 "x == 0" cond extras S 0).
  - intros a [<-|[<-|[]]] s0; reflexivity.
  - reflexivity.
Defined.
